(** * DailyExpenses: the budget / spend aggregation engine

    A shallow embedding of the computations of [DailyExpenses.py]: the
    period resolver, the loading of the expense sheet, the income and
    budget queries of the Dashboard, the month-over-month comparison of
    the Analysis tab and the Budget Planner forms.

    Conventions.
    - A pandas DataFrame read from a sheet is the list of its rows, in
      sheet (append) order.  The result of [groupby(..).sum()] has one row
      per key, so it is a finite map from the key to the sum.
    - Amounts are Python floats in the program; here they are exact
      rationals ([Qc]), so the rounding of sums is not modelled.  The
      month-end projection, which divides, is computed on binary64
      values with an explicit rounding.
    - [datetime] values carry the calendar fields the program reads. *)

From Stdlib Require Import ZArith QArith Qcanon Qcabs Lia.
From Stdlib Require Import Ascii String DecimalString DecimalZ DecimalPos.
From stdpp Require Import base numbers option list strings gmap fin_maps.

Local Open Scope Z_scope.

(** ** Amounts *)

Abbreviation amount := Qc.

(** An integral amount, such as [500] rupees. *)
Definition rupees (z : Z) : amount := Qc_of_Z z.

(** ** Calendar dates, as far as the program uses them *)

Module Calendar.

Record datetime := mk_datetime { year : Z; month : Z; day : Z }.

#[global] Instance datetime_eq_dec : EqDecision datetime.
Proof. solve_decision. Defined.

(** [calendar.isleap]. *)
Definition isleap (y : Z) : bool :=
  (y mod 4 =? 0) && (negb (y mod 100 =? 0) || (y mod 400 =? 0)).

(** Second component of [calendar.monthrange(y, m)]: the number of days
    of month [m] of year [y]. *)
Definition monthrange (y m : Z) : Z :=
  if m =? 2 then (if isleap y then 29 else 28)
  else if (m =? 4) || (m =? 6) || (m =? 9) || (m =? 11) then 30
  else 31.

(** A date the clock can deliver. *)
Definition valid (d : datetime) : Prop :=
  1 ≤ year d ≤ 9999 ∧ 1 ≤ month d ≤ 12 ∧ 1 ≤ day d ≤ monthrange (year d) (month d).

(** [d.replace(day=1)]. *)
Definition replace_day_1 (d : datetime) : datetime :=
  {| year := year d; month := month d; day := 1 |}.

(** [d - timedelta(days=1)]: the calendar day before [d]. *)
Definition minus_one_day (d : datetime) : datetime :=
  if 1 <? day d then {| year := year d; month := month d; day := day d - 1 |}
  else if month d =? 1 then {| year := year d - 1; month := 12; day := 31 |}
  else {| year := year d; month := month d - 1;
          day := monthrange (year d) (month d - 1) |}.

End Calendar.
Export Calendar.

(** ** Formatting of period keys *)

Module Format.

(** [str(n)] / [f"{n}"] of a Python int: its decimal numeral. *)
Definition str (n : Z) : string := NilZero.string_of_int (Z.to_int n).

(** [f"{n:02d}"] for a non-negative [n]: the decimal numeral, padded
    with zeros on the left up to two characters. *)
Definition fmt_02d (n : Z) : string :=
  let s := str n in
  if (String.length s <? 2)%nat then "0" +:+ s else s.

(** [d.strftime("%Y-%m")]: the year, a dash, the month on two digits.
    The year is its plain numeral, as in [f"{d.year}"]; the two differ
    only before year 1000, where some platforms pad [%Y]. *)
Definition strftime_Y_m (d : datetime) : string :=
  str (year d) +:+ "-" +:+ fmt_02d (month d).

(** [d.strftime("%Y-%m-%d")]. *)
Definition strftime_Y_m_d (d : datetime) : string :=
  str (year d) +:+ "-" +:+ fmt_02d (month d) +:+ "-" +:+ fmt_02d (day d).

(** The text before the first dash of [s], and the text after it. *)
Fixpoint split_dash (s : string) : option (string * string) :=
  match s with
  | EmptyString => None
  | String c s' =>
      if Ascii.eqb c "-"%char then Some (EmptyString, s')
      else match split_dash s' with
           | Some (a, b) => Some (String c a, b)
           | None => None
           end
  end.

(** The period key format of the data model, "YYYY-MM" with the month
    on two characters, read back: the numeral before the first dash is
    the year, the two characters after it are the month. *)
Definition parse_period_key (key : string) : option (Z * Z) :=
  match split_dash key with
  | Some (ys, ms) =>
      if (String.length ms =? 2)%nat then
        match NilZero.int_of_string ys, NilZero.int_of_string ms with
        | Some y, Some m => Some (Z.of_int y, Z.of_int m)
        | _, _ => None
        end
      else None
  | None => None
  end.

(** One calendar month after month [m] of year [y], counting months
    from year 0: month number [12 * y + (m - 1)] is followed by the
    next number. *)
Definition next_calendar_month (y m : Z) : Z * Z :=
  let n := 12 * y + (m - 1) + 1 in
  (n / 12, n mod 12 + 1).

End Format.
Export Format.

(** ** The three sheets *)

(** A row of the Income sheet: Month_Year, Amount, Source, Date_Added. *)
Record IncomeRecord := mk_income {
  inc_Month_Year : string;
  inc_Amount : amount;
  inc_Source : string;
  inc_Date_Added : string
}.

(** A row of the CategoryBudgets sheet: Month_Year, Category,
    Planned_Amount, Date_Added. *)
Record BudgetAllocationRecord := mk_alloc {
  bud_Month_Year : string;
  bud_Category : string;
  bud_Planned_Amount : amount;
  bud_Date_Added : string
}.

(** A row of the expense frame once loaded: Date, Category, Description,
    Amount. *)
Record ExpenseRecord := mk_expense {
  exp_Date : datetime;
  exp_Category : string;
  exp_Description : string;
  exp_Amount : amount
}.

#[global] Instance IncomeRecord_eq_dec : EqDecision IncomeRecord.
Proof. solve_decision. Defined.
#[global] Instance BudgetAllocationRecord_eq_dec : EqDecision BudgetAllocationRecord.
Proof. solve_decision. Defined.
#[global] Instance ExpenseRecord_eq_dec : EqDecision ExpenseRecord.
Proof. solve_decision. Defined.

(** ** Section 5 of the program: the period resolver *)

Module PeriodResolver.

(** [curr_month_str = today.strftime("%Y-%m")]. *)
Definition curr_month_str (today : datetime) : string := strftime_Y_m today.

(** [next_month_str]: December rolls over to January of the next year. *)
Definition next_month_str (today : datetime) : string :=
  if month today =? 12 then str (year today + 1) +:+ "-01"
  else str (year today) +:+ "-" +:+ fmt_02d (month today + 1).

(** [target_plan_month]: from the 25th on, the month to plan is the next. *)
Definition target_plan_month (today : datetime) : string :=
  if 25 <=? day today then next_month_str today else curr_month_str today.

End PeriodResolver.
Export PeriodResolver.

(** ** Section 4 of the program: loading the expense sheet *)

Module Loading.

(** A value of [get_all_records()]: gspread delivers a cell as a number
    when it reads as one and as text otherwise. *)
Inductive Cell :=
| CStr (s : string)
| CNum (q : amount).

(** A row of the expense sheet as read: Date, Category, Description,
    Amount. *)
Record SheetRow := mk_sheet_row {
  raw_Date : Cell;
  raw_Category : string;
  raw_Description : string;
  raw_Amount : Cell
}.

Inductive Exception := ParserError.

(** What a call gives: a value, or an exception that propagates. *)
Inductive Result (A : Type) :=
| Ok (a : A)
| Raised (e : Exception).
Arguments Ok {A} a.
Arguments Raised {A} e.

#[global] Instance Result_ret : MRet Result := λ A a, Ok a.
#[global] Instance Result_bind : MBind Result := λ A B k r,
  match r with
  | Ok a => k a
  | Raised e => Raised e
  end.

(** The [errors=] argument of [pd.to_datetime] and [pd.to_numeric]. *)
Inductive errors_arg := errors_raise | errors_coerce.

Section Parsers.

(** How pandas reads one cell of a Date column: [pd.to_datetime] settles
    on one date format for the whole column, so [parse_datetime col c] is
    the date of the cell [c] read as a cell of the column [col]; [None]
    is a cell that does not parse in that column. *)
Variable parse_datetime : list Cell → Cell → option datetime.

(** How [pd.to_numeric] reads one cell, whatever the other cells are;
    [None] is a cell that does not parse. *)
Variable parse_number : Cell → option amount.

(** One cell under the [errors] policy: with [errors_coerce] a cell
    that does not parse becomes the missing value ([NaT] / [NaN],
    here [None]); with [errors_raise] it raises. *)
Definition convert {A} (parse : Cell → option A) (errors : errors_arg)
    (c : Cell) : Result (option A) :=
  match parse c, errors with
  | Some v, _ => Ok (Some v)
  | None, errors_coerce => Ok None
  | None, errors_raise => Raised ParserError
  end.

(** A column, cell by cell, stopping at the first exception. *)
Fixpoint convert_column {A} (parse : Cell → option A) (errors : errors_arg)
    (col : list Cell) : Result (list (option A)) :=
  match col with
  | [] => Ok []
  | c :: col' =>
      v ← convert parse errors c ;
      vs ← convert_column parse errors col';
      Ok (v :: vs)
  end.

Definition to_datetime (errors : errors_arg) (col : list Cell)
    : Result (list (option datetime)) :=
  convert_column (parse_datetime col) errors col.

Definition to_numeric (errors : errors_arg) (col : list Cell)
    : Result (list (option amount)) :=
  convert_column parse_number errors col.

(** [col.fillna(v)]. *)
Definition fillna (v : amount) (col : list (option amount)) : list amount :=
  default v <$> col.

(** The frame after the two column assignments: each sheet row with
    its converted Date and Amount. *)
Definition assign_columns (rows : list SheetRow)
    (dates : list (option datetime)) (amounts : list amount)
    : list (SheetRow * option datetime * amount) :=
  zip (zip rows dates) amounts.

(** [df.dropna(subset=["Date"])]: the rows whose Date is not missing. *)
Definition dropna_Date (df : list (SheetRow * option datetime * amount))
    : list ExpenseRecord :=
  omap (λ '(r, d, a),
          match d with
          | Some d' => Some (mk_expense d' (raw_Category r) (raw_Description r) a)
          | None => None
          end) df.

(** The expense part of [get_data]. *)
Definition load_expenses (records : list SheetRow) : Result (list ExpenseRecord) :=
  match records with
  | [] => Ok []
  | _ =>
      dates ← to_datetime errors_coerce (raw_Date <$> records);
      amounts ← to_numeric errors_coerce (raw_Amount <$> records);
      Ok (dropna_Date (assign_columns records dates (fillna 0%Qc amounts)))
  end.

(** What one sheet row becomes, if it stays, in a sheet whose Date
    column is [col]. *)
Definition load_row (col : list Cell) (r : SheetRow) : option ExpenseRecord :=
  match parse_datetime col (raw_Date r) with
  | Some d =>
      Some (mk_expense d (raw_Category r) (raw_Description r)
              (default 0%Qc (parse_number (raw_Amount r))))
  | None => None
  end.

End Parsers.

End Loading.
Export Loading.

(** ** Frames *)

(** [df.empty]. *)
Definition df_empty {A} (df : list A) : bool :=
  match df with [] => true | _ => false end.

(** [df[col].sum()] on a frame of rows. *)
Definition column_sum {A} (val : A → amount) (df : list A) : amount :=
  foldl (λ acc r, (acc + val r)%Qc) 0%Qc df.

(** The sum of a list of amounts. *)
Definition total (l : list amount) : amount := foldr Qcplus 0%Qc l.

(** [df.groupby(key)[val].sum()]: for each key, the sum of the values of
    the rows with that key, added in row order. *)
Definition groupby_sum {A} (key : A → string) (val : A → amount) (df : list A)
    : gmap string amount :=
  foldl (λ acc r, <[key r := (default 0 (acc !! key r) + val r)%Qc]> acc) ∅ df.

(** [g[val].sum()] on a grouped frame. *)
Definition grouped_total (g : gmap string amount) : amount :=
  map_fold (λ _ v acc, (acc + v)%Qc) 0%Qc g.

(** [pd.merge(left, right, on="Category", how="outer")]: one row per
    category of either side; the side that lacks it is missing ([NaN]). *)
Definition merge_outer (left right : gmap string amount)
    : gmap string (option amount * option amount) :=
  merge (λ l r, match l, r with
                | None, None => None
                | _, _ => Some (l, r)
                end) left right.

(** [.fillna(0)] on the merged frame. *)
Definition fillna_0 (m : gmap string (option amount * option amount))
    : gmap string (amount * amount) :=
  (λ '(l, r), (default 0%Qc l, default 0%Qc r)) <$> m.

(** ** Section 5, continued: the income reminder *)

(** [income_exists]: some row of the Income sheet has the target month. *)
Definition income_exists (df_inc : list IncomeRecord) (target_plan_month : string) : bool :=
  if df_empty df_inc then false
  else negb (df_empty (filter (λ r, inc_Month_Year r = target_plan_month) df_inc)).

(** The guard of the reminder expander;
    [skip_prompt] is [st.session_state.get('skip_prompt', False)]. *)
Definition show_income_prompt (df_inc : list IncomeRecord) (today : datetime)
    (skip_prompt : bool) : bool :=
  negb (income_exists df_inc (target_plan_month today)) && negb skip_prompt.

(** ** Income queries *)

(** The income of a period as the Dashboard ([curr_sal]) and the Budget
    Planner ([current_salary]) compute it:
    [m = df_inc[df_inc["Month_Year"] == period]], then
    [float(m.iloc[-1]["Amount"])] unless [m] is empty. *)
Definition resolve_income (df_inc : list IncomeRecord) (period : string) : amount :=
  if df_empty df_inc then 0%Qc
  else
    let m := filter (λ r, inc_Month_Year r = period) df_inc in
    if df_empty m then 0%Qc
    else match last m with
         | Some row => inc_Amount row
         | None => 0%Qc
         end.

(** ** Binary64 arithmetic, where the program divides *)

Module Float64.

(** A binary64 value: a finite number, or one of inf, -inf and nan. *)
Inductive float64 :=
| Finite (q : amount)
| NonFinite.

#[global] Instance float64_eq_dec : EqDecision float64.
Proof. solve_decision. Defined.

Section Rounding.

(** The rounding of an exact result to binary64, [NonFinite] when the
    result is out of range. *)
Variable round : amount → float64.

(** [x / d] for a binary64 [x] and a day number [d], which binary64
    holds exactly: the rounded quotient, and inf or nan when [d] is 0,
    as numpy gives for the sum of a column (a plain Python float would
    raise instead). *)
Definition float_div_int (x : float64) (d : Z) : float64 :=
  match x with
  | Finite a => if d =? 0 then NonFinite else round (a / Qc_of_Z d)%Qc
  | NonFinite => NonFinite
  end.

(** [x * n] for a binary64 [x] and a day number [n]. *)
Definition float_mul_int (x : float64) (n : Z) : float64 :=
  match x with
  | Finite a => round (a * Qc_of_Z n)%Qc
  | NonFinite => NonFinite
  end.

End Rounding.

End Float64.
Export Float64.

(** ** Tab 2: the Dashboard *)

Module Dashboard.

(** [dash_df]: the expenses of the month and year of [today]. *)
Definition dash_df (df_exp : list ExpenseRecord) (today : datetime) : list ExpenseRecord :=
  filter (λ e, month (exp_Date e) = month today ∧ year (exp_Date e) = year today) df_exp.

Definition curr_sal (df_inc : list IncomeRecord) (today : datetime) : amount :=
  resolve_income df_inc (curr_month_str today).

(** [curr_plan] for a period: the planned amounts of the period, summed
    per category. *)
Definition resolve_planned_budget (df_cat_bud : list BudgetAllocationRecord)
    (period : string) : gmap string amount :=
  if df_empty df_cat_bud then ∅
  else
    let raw_plan := filter (λ b, bud_Month_Year b = period) df_cat_bud in
    groupby_sum bud_Category bud_Planned_Amount raw_plan.

Definition curr_plan (df_cat_bud : list BudgetAllocationRecord) (today : datetime) :=
  resolve_planned_budget df_cat_bud (curr_month_str today).

(** [actual_grp]: the expenses of a frame summed per category. *)
Definition actual_grp (df : list ExpenseRecord) : gmap string amount :=
  groupby_sum exp_Category exp_Amount df.

Definition total_spent (df_exp : list ExpenseRecord) (today : datetime) : amount :=
  column_sum exp_Amount (dash_df df_exp today).

Definition total_planned (curr_plan : gmap string amount) : amount :=
  if decide (curr_plan = ∅) then 0%Qc else grouped_total curr_plan.

(** [projected]: the spend so far, extended linearly to the whole month,
    [(total_spent / days_passed) * days_in_month if days_passed > 0 else 0],
    in binary64 with the rounding [round]. *)
Definition project_month_end (round : amount → float64) (total_spent : amount)
    (days_passed days_in_month : Z) : float64 :=
  if 0 <? days_passed
  then float_mul_int round (float_div_int round (Finite total_spent) days_passed)
         days_in_month
  else Finite 0%Qc.

Definition projected (round : amount → float64) (df_exp : list ExpenseRecord)
    (today : datetime) : float64 :=
  project_month_end round (total_spent df_exp today) (day today)
    (monthrange (year today) (month today)).

(** A row of [merged], keyed by its Category. *)
Record MergedRow := mk_merged {
  Planned : amount;
  Actual : amount;
  Is_Over_Budget : bool
}.

(** [merged]: the plan joined with the actual spend, then the
    [Is_Over_Budget] column. *)
Definition merge_plan_actual (curr_plan actual_grp : gmap string amount)
    : gmap string MergedRow :=
  let merged :=
    if decide (curr_plan = ∅)
    then (λ a, (0%Qc, a)) <$> actual_grp
    else fillna_0 (merge_outer curr_plan actual_grp) in
  (λ '(p, a), mk_merged p a (bool_decide (p < a)%Qc)) <$> merged.

End Dashboard.
Export Dashboard.

(** ** Tab 3: the month-over-month comparison *)

Module Analysis.

Definition last_month_date (today : datetime) : datetime :=
  minus_one_day (replace_day_1 today).

Definition prev_month_idx (today : datetime) : Z := month (last_month_date today).

Definition curr_df (df_exp : list ExpenseRecord) (today : datetime) : list ExpenseRecord :=
  filter (λ e, month (exp_Date e) = month today ∧ year (exp_Date e) = year today) df_exp.

Definition prev_df (df_exp : list ExpenseRecord) (today : datetime) : list ExpenseRecord :=
  filter (λ e, month (exp_Date e) = prev_month_idx today) df_exp.

Definition c_total (df_exp : list ExpenseRecord) (today : datetime) : amount :=
  column_sum exp_Amount (curr_df df_exp today).

Definition p_total (df_exp : list ExpenseRecord) (today : datetime) : amount :=
  column_sum exp_Amount (prev_df df_exp today).

Definition c_cat (df_exp : list ExpenseRecord) (today : datetime) : gmap string amount :=
  groupby_sum exp_Category exp_Amount (curr_df df_exp today).

Definition p_cat (df_exp : list ExpenseRecord) (today : datetime) : gmap string amount :=
  groupby_sum exp_Category exp_Amount (prev_df df_exp today).

(** [comp_merged]: per category, the pair (Current, Previous). *)
Definition comp_merged (df_exp : list ExpenseRecord) (today : datetime)
    : gmap string (amount * amount) :=
  fillna_0 (merge_outer (c_cat df_exp today) (p_cat df_exp today)).

(** The expenses of the calendar month before [today]'s, year included. *)
Definition in_previous_period (today : datetime) (e : ExpenseRecord) : Prop :=
  month (exp_Date e) = month (last_month_date today) ∧
  year (exp_Date e) = year (last_month_date today).

#[global] Instance in_previous_period_dec today e :
  Decision (in_previous_period today e).
Proof. unfold in_previous_period. apply _. Defined.

End Analysis.
Export Analysis.

(** ** Tab 4: the Budget Planner *)

Module Planner.

(** [st.number_input(label, value=v)] of a field inside [st.form]: what
    the script gets from the field in a run.  [field] is what the form
    delivers to the run: the submitted number in the run that the form's
    button starts, nothing in any other run, which then gets [v]. *)
Definition number_input (value : amount) (field : option amount) : amount :=
  default value field.

Definition current_salary (df_inc : list IncomeRecord) (plan_month_opt : string) : amount :=
  resolve_income df_inc plan_month_opt.

Definition new_salary (df_inc : list IncomeRecord) (plan_month_opt : string)
    (field : option amount) : amount :=
  number_input (current_salary df_inc plan_month_opt) field.

Definition plan_df (df_cat_bud : list BudgetAllocationRecord) (plan_month_opt : string)
    : list BudgetAllocationRecord :=
  if df_empty df_cat_bud then []
  else filter (λ b, bud_Month_Year b = plan_month_opt) df_cat_bud.

Definition display_df (df_cat_bud : list BudgetAllocationRecord) (plan_month_opt : string)
    : gmap string amount :=
  groupby_sum bud_Category bud_Planned_Amount (plan_df df_cat_bud plan_month_opt).

Definition total_alloc (df_cat_bud : list BudgetAllocationRecord) (plan_month_opt : string)
    : amount :=
  grouped_total (display_df df_cat_bud plan_month_opt).

(** [balance], the "Remaining to Allocate" metric; nothing is shown
    ([None]) when the month has no allocation.  [field] is what the
    income form delivers to the run; a run that gets this far was not
    started by that form's button (see [budget_planner_run]). *)
Definition balance (df_inc : list IncomeRecord) (df_cat_bud : list BudgetAllocationRecord)
    (plan_month_opt : string) (field : option amount) : option amount :=
  if df_empty (plan_df df_cat_bud plan_month_opt) then None
  else Some (new_salary df_inc plan_month_opt field
             - total_alloc df_cat_bud plan_month_opt)%Qc.

(** The stored income of the month minus its total planned allocation. *)
Definition stored_balance (df_inc : list IncomeRecord)
    (df_cat_bud : list BudgetAllocationRecord) (plan_month_opt : string) : amount :=
  (resolve_income df_inc plan_month_opt - total_alloc df_cat_bud plan_month_opt)%Qc.

(** The body of the "Add Allocation" submit: the CategoryBudgets sheet
    afterwards, and whether the script reruns. *)
Definition add_cat_budget (sheet_cat_bud : list BudgetAllocationRecord)
    (plan_month_opt cat_input : string) (amt_input : amount) (today : datetime)
    : list BudgetAllocationRecord * bool :=
  if bool_decide (0 < amt_input)%Qc
  then (sheet_cat_bud ++ [mk_alloc plan_month_opt cat_input amt_input
                            (strftime_Y_m_d today)], true)
  else (sheet_cat_bud, false).

End Planner.
Export Planner.

(** ** Section 2 of the program: the login gate *)

Module Login.

(** [st.session_state], with the three keys the program uses; [None] is
    a key that is absent. *)
Record SessionState := mk_session {
  ss_password : option string;
  ss_password_correct : option bool;
  ss_skip_prompt : option bool
}.

(** [password_entered], the [on_change] callback of the password field,
    against the configured [secret]; [None] is the [KeyError] of reading
    an absent "password". *)
Definition password_entered (secret : string) (st : SessionState) : option SessionState :=
  match ss_password st with
  | None => None
  | Some typed =>
      if decide (typed = secret)
      then Some {| ss_password := None;
                   ss_password_correct := Some true;
                   ss_skip_prompt := ss_skip_prompt st |}
      else Some {| ss_password := Some typed;
                   ss_password_correct := Some false;
                   ss_skip_prompt := ss_skip_prompt st |}
  end.

(** The user puts [typed] into the password field: the field's value is
    stored under its key and the callback runs. *)
Definition type_password (secret typed : string) (st : SessionState) : option SessionState :=
  password_entered secret
    {| ss_password := Some typed;
       ss_password_correct := ss_password_correct st;
       ss_skip_prompt := ss_skip_prompt st |}.

(** What a call of [check_password] leaves and gives: the session state,
    whether the "Password incorrect" error was shown, and the result.
    What Streamlit itself stores for the password field when it draws
    it is not part of the state change modelled here. *)
Record GateOutcome := mk_gate {
  gate_state : SessionState;
  gate_error_shown : bool;
  gate_result : bool
}.

Definition check_password (st : SessionState) : GateOutcome :=
  let st1 :=
    match ss_password_correct st with
    | None => {| ss_password := ss_password st;
                 ss_password_correct := Some false;
                 ss_skip_prompt := ss_skip_prompt st |}
    | Some _ => st
    end in
  match ss_password_correct st1 with
  | Some true => mk_gate st1 false true
  | flag =>
      mk_gate st1 (match flag with Some false => true | _ => false end) false
  end.

(** The Logout button. *)
Definition logout (st : SessionState) : SessionState :=
  {| ss_password := ss_password st;
     ss_password_correct := Some false;
     ss_skip_prompt := ss_skip_prompt st |}.

End Login.
Export Login.

(** ** Section 5, continued: the actions of the reminder *)

Module Reminder.

(** [st.session_state.get('skip_prompt', False)]. *)
Definition get_skip_prompt (st : SessionState) : bool :=
  default false (ss_skip_prompt st).

(** Whether a run shows the reminder. *)
Definition reminder_shown (df_inc : list IncomeRecord) (today : datetime)
    (st : SessionState) : bool :=
  show_income_prompt df_inc today (get_skip_prompt st).

(** The "Set Salary" submit: the Income sheet afterwards. *)
Definition quick_salary (sheet_inc : list IncomeRecord) (today : datetime)
    (sal_in : amount) : list IncomeRecord :=
  sheet_inc ++ [mk_income (target_plan_month today) sal_in "Salary"
                  (strftime_Y_m_d today)].

(** The "Skip" button. *)
Definition skip_click (st : SessionState) : SessionState :=
  {| ss_password := ss_password st;
     ss_password_correct := ss_password_correct st;
     ss_skip_prompt := Some true |}.

End Reminder.
Export Reminder.

(** ** Section 4, continued: the Income and CategoryBudgets worksheets *)

Module Workbook.






End Workbook.
Export Workbook.

(** ** Tab 1: the entry form *)

Module Entry.


End Entry.
Export Entry.

(** ** Tab 2, continued: the chart and the Over Limit table *)

Module DashboardView.

(** [over_budget]: the rows of [merged] whose [Diff = Planned - Actual]
    is negative, each with its "Over By", the absolute value of [Diff]. *)
Definition over_budget (merged : gmap string MergedRow) : gmap string amount :=
  (λ row, Qcabs (Planned row - Actual row)) <$>
    filter (λ kv, (Planned kv.2 - Actual kv.2 < 0)%Qc) merged.

Inductive BarType := Bar_Planned | Bar_Actual.

(** A row of [melted]: Category, Is_Over_Budget, Type, Amount. *)
Record Bar := mk_bar {
  bar_Category : string;
  bar_Is_Over_Budget : bool;
  bar_Type : BarType;
  bar_Amount : amount
}.

(** [merged.melt(...)]: the Planned rows, then the Actual rows.  Within
    each block the rows come in the order of the map's listing, which
    is not the row order of pandas. *)
Definition melted (merged : gmap string MergedRow) : list Bar :=
  ((λ kv, mk_bar kv.1 (Is_Over_Budget kv.2) Bar_Planned (Planned kv.2))
     <$> map_to_list merged) ++
  ((λ kv, mk_bar kv.1 (Is_Over_Budget kv.2) Bar_Actual (Actual kv.2))
     <$> map_to_list merged).

Definition get_bar_color (row : Bar) : string :=
  match bar_Type row with
  | Bar_Planned => "#e0e0e0"
  | Bar_Actual => if bar_Is_Over_Budget row then "#ff4b4b" else "#2ca02c"
  end.

End DashboardView.
Export DashboardView.

(** ** Tab 4, continued: the income form and the month selector *)

Module PlannerForms.

(** The options of the "Select Month to Plan" radio. *)
Definition plan_month_options (today : datetime) : list string :=
  [curr_month_str today; next_month_str today].

(** The "Update Income" submit: the Income sheet afterwards. *)
Definition update_income (sheet_inc : list IncomeRecord) (plan_month_opt : string)
    (amount_field : amount) (today : datetime) : list IncomeRecord :=
  sheet_inc ++ [mk_income plan_month_opt amount_field "Salary"
                  (strftime_Y_m_d today)].

End PlannerForms.
Export PlannerForms.

(** ** Tab 4, continued: a run of the income form and the balance *)

Module PlannerRun.





End PlannerRun.
Export PlannerRun.

(** ** Properties *)

(** *** Income of a period *)

Lemma df_empty_true {A} (df : list A) : df_empty df = true ↔ df = [].
Proof. destruct df; simpl; split; congruence. Qed.

Lemma filter_none {A} (P : A → Prop) `{∀ x, Decision (P x)} (l : list A) :
  (∀ x, x ∈ l → ¬ P x) → filter P l = [].
Proof.
  induction l as [|a l IH]; intros Hno; [done|].
  rewrite filter_cons_False; [|apply Hno; left].
  apply IH. intros x Hx. apply Hno. by right.
Qed.

(** C1.  [resolve_income] is 0 when no record of the sheet has the period;
    otherwise it is the amount of the last record of that period in sheet
    order, whatever the amounts of the earlier ones. *)
Theorem resolve_income_last_write_wins (df_inc : list IncomeRecord) (period : string) :
  ((∀ r, r ∈ df_inc → inc_Month_Year r ≠ period) →
     resolve_income df_inc period = 0%Qc) ∧
  (∀ earlier r later,
     df_inc = earlier ++ r :: later →
     inc_Month_Year r = period →
     (∀ r', r' ∈ later → inc_Month_Year r' ≠ period) →
     resolve_income df_inc period = inc_Amount r).
Proof.
  split.
  - intros Hno. unfold resolve_income.
    destruct (df_empty df_inc); [done|].
    by rewrite (filter_none _ _ Hno).
  - intros earlier r later -> Hr Hlater. unfold resolve_income.
    destruct (df_empty (earlier ++ r :: later)) eqn:He.
    { apply df_empty_true in He. by destruct earlier. }
    rewrite filter_app, filter_cons_True by done.
    rewrite (filter_none _ later) by done.
    rewrite last_snoc.
    destruct (filter _ earlier); done.
Qed.

Lemma resolve_income_last_write_wins_witness :
  let p := "2025-01"%string in
  let df := [mk_income p (rupees 100) "Salary" "2025-01-02";
             mk_income p (rupees 50) "Salary" "2025-01-02"] in
  resolve_income df p = rupees 50 ∧ rupees 50 ≠ rupees 100 ∧
  rupees 50 ≠ (rupees 100 + rupees 50)%Qc.
Proof.
  intros p df. split; [|split; by vm_compute].
  apply (proj2 (resolve_income_last_write_wins df p)
           [mk_income p (rupees 100) "Salary" "2025-01-02"]
           (mk_income p (rupees 50) "Salary" "2025-01-02") []).
  - reflexivity.
  - reflexivity.
  - intros r' Hr'. by apply elem_of_nil in Hr'.
Defined.

(** The income of a period after one more row. *)
Lemma resolve_income_snoc (df_inc : list IncomeRecord) (r : IncomeRecord)
    (period : string) :
  resolve_income (df_inc ++ [r]) period
  = if decide (inc_Month_Year r = period) then inc_Amount r
    else resolve_income df_inc period.
Proof.
  unfold resolve_income.
  destruct (df_empty (df_inc ++ [r])) eqn:He.
  { apply df_empty_true in He. by destruct df_inc. }
  rewrite filter_app. destruct (decide (inc_Month_Year r = period)) as [Hp|Hp].
  - rewrite (filter_cons_True _ r []) by done. rewrite filter_nil, last_snoc.
    by destruct (filter _ df_inc).
  - rewrite (filter_cons_False _ r []) by done. rewrite filter_nil, app_nil_r.
    by destruct df_inc.
Qed.

(** *** The income reminder *)

(** Closes a goal [a = b] between two concrete amounts. *)
Ltac qc_eq := apply Qc_is_canon; reflexivity.

Lemma income_exists_true (df_inc : list IncomeRecord) (period : string) :
  income_exists df_inc period = true ↔ ∃ r, r ∈ df_inc ∧ inc_Month_Year r = period.
Proof.
  unfold income_exists. split.
  - destruct (df_empty df_inc); [done|].
    destruct (filter _ df_inc) as [|r m] eqn:Hm; [done|]. intros _.
    assert (Hr : r ∈ filter (λ r, inc_Month_Year r = period) df_inc)
      by (rewrite Hm; left).
    apply list_elem_of_filter in Hr. exists r. tauto.
  - intros (r & Hr & Hp).
    destruct df_inc as [|r0 df]; [by apply elem_of_nil in Hr|]. simpl.
    assert (Hin : r ∈ filter (λ r, inc_Month_Year r = period) (r0 :: df))
      by (apply list_elem_of_filter; done).
    destruct (filter _ (r0 :: df)); [by apply elem_of_nil in Hin | done].
Qed.

Lemma income_exists_false (df_inc : list IncomeRecord) (period : string) :
  income_exists df_inc period = false ↔ ∀ r, r ∈ df_inc → inc_Month_Year r ≠ period.
Proof.
  rewrite <- not_true_iff_false, income_exists_true. split.
  - intros Hno r Hr Hp. apply Hno. by exists r.
  - intros Hno (r & Hr & Hp). by apply (Hno r).
Qed.

(** C3, as the program has it.  The reminder is shown exactly when the
    Income sheet has no row for the target period and the prompt was not
    skipped in this session; a stored row of amount 0 counts as a row
    and so suppresses the reminder. *)
Theorem show_income_prompt_iff_no_record (df_inc : list IncomeRecord)
    (today : datetime) (skip_prompt : bool) :
  (show_income_prompt df_inc today skip_prompt = true ↔
     (∀ r, r ∈ df_inc → inc_Month_Year r ≠ target_plan_month today) ∧
     skip_prompt = false) ∧
  (∀ r, r ∈ df_inc → inc_Month_Year r = target_plan_month today →
     show_income_prompt df_inc today skip_prompt = false).
Proof.
  unfold show_income_prompt. split.
  - rewrite andb_true_iff, !negb_true_iff, income_exists_false. done.
  - intros r Hr Hp.
    assert (He : income_exists df_inc (target_plan_month today) = true)
      by (apply income_exists_true; by exists r).
    by rewrite He.
Qed.

Lemma show_income_prompt_iff_no_record_witness :
  let today := mk_datetime 2025 1 10 in
  let df := [mk_income "2025-01" (rupees 0) "Salary" "2025-01-02"] in
  show_income_prompt df today false = false.
Proof.
  intros today df.
  apply (proj2 (show_income_prompt_iff_no_record df today false)
           (mk_income "2025-01" (rupees 0) "Salary" "2025-01-02")).
  - left.
  - reflexivity.
Defined.

(** C3, as the claim has it, fails: with a stored income of 0 for the
    target period and nothing skipped, [resolve_income] is 0 but no
    reminder is shown. *)
Lemma show_income_prompt_not_iff_zero_income :
  let today := mk_datetime 2025 1 10 in
  let df := [mk_income "2025-01" (rupees 0) "Salary" "2025-01-02"] in
  ¬ (show_income_prompt df today false = true ↔
       resolve_income df (target_plan_month today) = 0%Qc ∧ false = false).
Proof.
  intros today df [_ Hprompt].
  assert (H : show_income_prompt df today false = true).
  { apply Hprompt. split; [|done]. vm_compute. qc_eq. }
  vm_compute in H. discriminate H.
Qed.

(** *** The month-end projection *)



(** *** The Add Allocation form *)

Lemma snoc_neq {A} (l : list A) (x : A) : l ++ [x] ≠ l.
Proof.
  intros H. apply (f_equal length) in H. rewrite length_app in H. simpl in H. lia.
Qed.

(** C10.  Submitting Add Allocation with amount 0 leaves the
    CategoryBudgets sheet as it was; the sheet changes exactly when the
    amount is strictly positive, and then by one appended row. *)
Theorem add_cat_budget_zero_appends_nothing
    (sheet_cat_bud : list BudgetAllocationRecord) (plan_month_opt cat_input : string)
    (amt_input : amount) (today : datetime) :
  (amt_input = 0%Qc →
     add_cat_budget sheet_cat_bud plan_month_opt cat_input amt_input today
     = (sheet_cat_bud, false)) ∧
  ((add_cat_budget sheet_cat_bud plan_month_opt cat_input amt_input today).1
     ≠ sheet_cat_bud ↔ (0 < amt_input)%Qc) ∧
  ((0 < amt_input)%Qc →
     (add_cat_budget sheet_cat_bud plan_month_opt cat_input amt_input today).1
     = sheet_cat_bud ++
       [mk_alloc plan_month_opt cat_input amt_input (strftime_Y_m_d today)]).
Proof.
  unfold add_cat_budget. repeat split.
  - intros ->. by rewrite bool_decide_eq_false_2.
  - case_bool_decide; [done|]. simpl. congruence.
  - intros Hpos. rewrite bool_decide_eq_true_2 by done. apply snoc_neq.
  - intros Hpos. by rewrite bool_decide_eq_true_2.
Qed.

Lemma add_cat_budget_zero_appends_nothing_witness :
  let sheet := [mk_alloc "2025-01" "Rent" (rupees 400) "2025-01-02"] in
  add_cat_budget sheet "2025-01" "Groceries" (rupees 0) (mk_datetime 2025 1 10)
  = (sheet, false).
Proof.
  intros sheet.
  apply (proj1 (add_cat_budget_zero_appends_nothing sheet "2025-01" "Groceries"
                  (rupees 0) (mk_datetime 2025 1 10))).
  qc_eq.
Defined.

(** *** Grouped sums *)

Lemma foldl_plus_total {A} (val : A → amount) (l : list A) (x : amount) :
  foldl (λ acc r, (acc + val r)%Qc) x l = (x + total (val <$> l))%Qc.
Proof.
  revert x. induction l as [|a l IH]; intros x; simpl.
  - by rewrite Qcplus_0_r.
  - rewrite IH. by rewrite Qcplus_assoc.
Qed.

Lemma column_sum_total {A} (val : A → amount) (df : list A) :
  column_sum val df = total (val <$> df).
Proof. unfold column_sum. by rewrite foldl_plus_total, Qcplus_0_l. Qed.

(** The accumulator of [groupby_sum] at one key, after a run of rows. *)
Lemma groupby_fold_lookup {A} (key : A → string) (val : A → amount)
    (df : list A) (acc : gmap string amount) (k : string) :
  foldl (λ acc r, <[key r := (default 0 (acc !! key r) + val r)%Qc]> acc) acc df !! k
  = match filter (λ r, key r = k) df with
    | [] => acc !! k
    | g => Some (foldl (λ a r, (a + val r)%Qc) (default 0%Qc (acc !! k)) g)
    end.
Proof.
  revert acc. induction df as [|a df IH]; intros acc; [done|].
  simpl foldl. rewrite IH. destruct (decide (key a = k)) as [Heq|Hne].
  - rewrite filter_cons_True by done. rewrite Heq, lookup_insert_eq. simpl.
    by destruct (filter _ df).
  - rewrite filter_cons_False by done. by rewrite lookup_insert_ne.
Qed.

Lemma groupby_sum_lookup {A} (key : A → string) (val : A → amount)
    (df : list A) (k : string) :
  groupby_sum key val df !! k
  = let g := filter (λ r, key r = k) df in
    if df_empty g then None else Some (total (val <$> g)).
Proof.
  unfold groupby_sum. rewrite groupby_fold_lookup, lookup_empty. simpl.
  destruct (filter _ df) as [|a g]; [done|]. simpl df_empty. cbv iota.
  by rewrite foldl_plus_total, Qcplus_0_l.
Qed.

(** C5.  For a period and a category, the planned budget is the sum of
    the planned amounts of all the allocation rows of that period and
    category (absent when there is none): duplicates accumulate.  The
    Dashboard and the Budget Planner agree on this. *)
Theorem resolve_planned_budget_sums_duplicates
    (df_cat_bud : list BudgetAllocationRecord) (period category : string) :
  let rows := filter (λ b, bud_Month_Year b = period ∧ bud_Category b = category)
                df_cat_bud in
  let expected := if df_empty rows then None
                  else Some (total (bud_Planned_Amount <$> rows)) in
  resolve_planned_budget df_cat_bud period !! category = expected ∧
  display_df df_cat_bud period !! category = expected.
Proof.
  intros rows expected.
  assert (Hrows : filter (λ b, bud_Category b = category)
                    (filter (λ b, bud_Month_Year b = period) df_cat_bud) = rows).
  { rewrite list_filter_filter. apply list_filter_iff. tauto. }
  unfold resolve_planned_budget, display_df, plan_df.
  destruct df_cat_bud as [|b df]; [done|].
  simpl df_empty. cbv iota.
  by rewrite groupby_sum_lookup; simpl; rewrite Hrows.
Qed.

Lemma resolve_planned_budget_sums_duplicates_witness :
  let df := [mk_alloc "2024-05" "Groceries" (rupees 200) "2024-05-01";
             mk_alloc "2024-05" "Rent" (rupees 900) "2024-05-01";
             mk_alloc "2024-06" "Groceries" (rupees 50) "2024-05-26";
             mk_alloc "2024-05" "Groceries" (rupees 300) "2024-05-03"] in
  resolve_planned_budget df "2024-05" !! "Groceries"%string = Some (rupees 500).
Proof.
  intros df.
  rewrite (proj1 (resolve_planned_budget_sums_duplicates df "2024-05" "Groceries")).
  vm_compute. f_equal. qc_eq.
Defined.

(** *** Plan against actual *)

Lemma merge_plan_actual_lookup (curr_plan actual_grp : gmap string amount) (c : string) :
  merge_plan_actual curr_plan actual_grp !! c
  = match curr_plan !! c, actual_grp !! c with
    | None, None => None
    | p, a =>
        Some (mk_merged (default 0%Qc p) (default 0%Qc a)
                (bool_decide (default 0%Qc p < default 0%Qc a)%Qc))
    end.
Proof.
  unfold merge_plan_actual, fillna_0, merge_outer.
  destruct (decide (curr_plan = ∅)) as [->|Hne].
  - rewrite !lookup_fmap, lookup_empty. by destruct (actual_grp !! c).
  - rewrite !lookup_fmap, lookup_merge.
    by destruct (curr_plan !! c), (actual_grp !! c).
Qed.

(** C4.  The categories of [merge_plan_actual] are those of the plan
    together with those of the actual spend; each row carries the two
    amounts, 0 standing for a side that lacks the category, and is flagged
    over budget exactly when the actual amount exceeds the planned one. *)
Theorem merge_plan_actual_outer_join (curr_plan actual_grp : gmap string amount) :
  dom (merge_plan_actual curr_plan actual_grp) = dom curr_plan ∪ dom actual_grp ∧
  (∀ c row,
     merge_plan_actual curr_plan actual_grp !! c = Some row →
     Planned row = default 0%Qc (curr_plan !! c) ∧
     Actual row = default 0%Qc (actual_grp !! c) ∧
     (Is_Over_Budget row = true ↔ (Planned row < Actual row)%Qc)).
Proof.
  split.
  - apply set_eq. intros c.
    rewrite elem_of_union, !elem_of_dom, merge_plan_actual_lookup.
    destruct (curr_plan !! c), (actual_grp !! c);
      rewrite !is_Some_alt; tauto.
  - intros c row. rewrite merge_plan_actual_lookup.
    destruct (curr_plan !! c), (actual_grp !! c); intros Hrow;
      simplify_eq/=; rewrite bool_decide_eq_true; done.
Qed.

Lemma merge_plan_actual_outer_join_witness :
  let plan : gmap string amount :=
    {[ "Rent"%string := rupees 900; "Groceries"%string := rupees 500 ]} in
  let spent : gmap string amount :=
    {[ "Groceries"%string := rupees 620; "Petrol"%string := rupees 80 ]} in
  let petrol := mk_merged (rupees 0) (rupees 80) true in
  Planned petrol = default 0%Qc (plan !! "Petrol"%string) ∧
  Actual petrol = default 0%Qc (spent !! "Petrol"%string) ∧
  (Is_Over_Budget petrol = true ↔ (Planned petrol < Actual petrol)%Qc).
Proof.
  intros plan spent petrol.
  apply (proj2 (merge_plan_actual_outer_join plan spent) "Petrol"%string petrol).
  vm_compute. f_equal. f_equal; qc_eq.
Defined.

(** *** The Budget Planner balance *)

Lemma grouped_total_insert (g : gmap string amount) (k : string) (v : amount) :
  grouped_total (<[k := (default 0 (g !! k) + v)%Qc]> g) = (grouped_total g + v)%Qc.
Proof.
  unfold grouped_total.
  assert (Hcomm : ∀ (m : gmap string amount) (j1 j2 : string) (z1 z2 y : amount),
             j1 ≠ j2 → m !! j1 = Some z1 → m !! j2 = Some z2 →
             (y + z2 + z1 = y + z1 + z2)%Qc) by (intros; ring).
  destruct (g !! k) as [x|] eqn:Hk; simpl.
  - rewrite <- insert_delete_eq.
    rewrite map_fold_insert_L; [|by apply Hcomm|by apply lookup_delete_eq].
    rewrite (map_fold_delete_L _ _ k x g); [|by apply Hcomm|done].
    ring.
  - rewrite map_fold_insert_L; [|by apply Hcomm|done]. ring.
Qed.

(** Summing the group sums gives the sum of all the rows. *)
Lemma grouped_total_groupby_sum {A} (key : A → string) (val : A → amount) (df : list A) :
  grouped_total (groupby_sum key val df) = total (val <$> df).
Proof.
  unfold groupby_sum. induction df as [|r df IH] using rev_ind.
  - simpl. unfold grouped_total. by rewrite map_fold_empty.
  - rewrite foldl_snoc, grouped_total_insert, IH, fmap_app.
    unfold total. rewrite foldr_app. simpl. fold (total (val <$> df)).
    rewrite Qcplus_0_r.
    generalize (val r). generalize (val <$> df). clear.
    intros l v. induction l as [|a l IH]; simpl; [ring|].
    rewrite <- IH. ring.
Qed.

(** The total allocation of the Budget Planner is the sum of the planned
    amounts of the rows of the selected month. *)
Lemma total_alloc_total (df_cat_bud : list BudgetAllocationRecord) (plan_month_opt : string) :
  total_alloc df_cat_bud plan_month_opt
  = total (bud_Planned_Amount <$>
             filter (λ b, bud_Month_Year b = plan_month_opt) df_cat_bud).
Proof.
  unfold total_alloc, display_df, plan_df.
  rewrite grouped_total_groupby_sum. by destruct df_cat_bud.
Qed.

(** The balance shown is computed from the income field of the form. *)
Lemma balance_from_field (df_inc : list IncomeRecord)
    (df_cat_bud : list BudgetAllocationRecord) (plan_month_opt : string)
    (field : option amount) (b : amount) :
  balance df_inc df_cat_bud plan_month_opt field = Some b →
  b = (default (resolve_income df_inc plan_month_opt) field
       - total_alloc df_cat_bud plan_month_opt)%Qc.
Proof.
  unfold balance, new_salary, number_input, current_salary.
  destruct (df_empty _); congruence.
Qed.

(** With the field left at its initial value, it is the stored balance. *)
Lemma balance_untouched_field (df_inc : list IncomeRecord)
    (df_cat_bud : list BudgetAllocationRecord) (plan_month_opt : string) (b : amount) :
  balance df_inc df_cat_bud plan_month_opt None = Some b →
  b = stored_balance df_inc df_cat_bud plan_month_opt.
Proof. intros Hb. by apply balance_from_field in Hb. Qed.



(** *** The month-over-month comparison *)

(** The date whose month is taken as the previous month: the last day of
    the calendar month before [today]'s, in its own year. *)
Lemma last_month_date_spec (today : datetime) :
  1 ≤ month today ≤ 12 →
  last_month_date today
  = if month today =? 1
    then mk_datetime (year today - 1) 12 31
    else mk_datetime (year today) (month today - 1)
           (monthrange (year today) (month today - 1)).
Proof. intros Hm. unfold last_month_date, minus_one_day, replace_day_1. done. Qed.

(** [prev_df] keeps an expense for its month alone. *)
Lemma prev_df_elem (df_exp : list ExpenseRecord) (today : datetime) (e : ExpenseRecord) :
  e ∈ prev_df df_exp today ↔
  e ∈ df_exp ∧ month (exp_Date e) = month (last_month_date today).
Proof. unfold prev_df, prev_month_idx. rewrite list_elem_of_filter. tauto. Qed.

(** [curr_df] keeps an expense for its month and its year. *)
Lemma curr_df_elem (df_exp : list ExpenseRecord) (today : datetime) (e : ExpenseRecord) :
  e ∈ curr_df df_exp today ↔
  e ∈ df_exp ∧ month (exp_Date e) = month today ∧ year (exp_Date e) = year today.
Proof. unfold curr_df. rewrite list_elem_of_filter. tauto. Qed.

(** C2 on a run of the program.  On 2025-01-15 the previous period is
    December 2024, whose expenses sum to 50; the previous total and the
    previous per-category sum are 150, as they take in the expense of
    December 2023 as well. *)
Theorem prev_df_takes_every_year :
  let today := mk_datetime 2025 1 15 in
  let df_exp := [mk_expense (mk_datetime 2023 12 10) "Groceries" "market" (rupees 100);
                 mk_expense (mk_datetime 2024 12 5) "Groceries" "market" (rupees 50);
                 mk_expense (mk_datetime 2025 1 3) "Groceries" "market" (rupees 70)] in
  last_month_date today = mk_datetime 2024 12 31 ∧
  column_sum exp_Amount (filter (in_previous_period today) df_exp) = rupees 50 ∧
  mk_expense (mk_datetime 2023 12 10) "Groceries" "market" (rupees 100)
    ∈ prev_df df_exp today ∧
  p_total df_exp today = rupees 150 ∧
  p_cat df_exp today !! "Groceries"%string = Some (rupees 150) ∧
  c_total df_exp today = rupees 70.
Proof.
  intros today df_exp. repeat split.
  - qc_eq.
  - apply prev_df_elem. split; [left | reflexivity].
  - qc_eq.
  - vm_compute. f_equal. qc_eq.
  - qc_eq.
Qed.

(** *** Loading the expense sheet *)

Section LoadingProperties.

Variable parse_datetime : list Cell → Cell → option datetime.
Variable parse_number : Cell → option amount.

(** Under [errors="coerce"] a column never raises: every cell gives its
    parsed value or the missing value. *)
Lemma convert_column_coerce {A} (parse : Cell → option A) (col : list Cell) :
  convert_column parse errors_coerce col = Ok (parse <$> col).
Proof.
  induction col as [|c col IH]; [done|].
  simpl. rewrite IH. unfold convert. by destruct (parse c).
Qed.

Lemma dropna_assign_columns (col : list Cell) (records : list SheetRow) :
  dropna_Date
    (assign_columns records (parse_datetime col <$> (raw_Date <$> records))
       (fillna 0%Qc (parse_number <$> (raw_Amount <$> records))))
  = omap (load_row parse_datetime parse_number col) records.
Proof.
  unfold dropna_Date, assign_columns, fillna.
  induction records as [|r records IH]; [done|].
  csimpl. rewrite IH. unfold load_row.
  by destruct (parse_datetime col (raw_Date r)).
Qed.

(** Loading keeps the order of the sheet: every sheet row gives at most
    one expense, read with the dates of the whole column in view. *)
Lemma load_expenses_rows (records : list SheetRow) :
  load_expenses parse_datetime parse_number records
  = Ok (omap (load_row parse_datetime parse_number (raw_Date <$> records)) records).
Proof.
  destruct records as [|r records]; [done|].
  unfold load_expenses, to_datetime, to_numeric.
  rewrite !convert_column_coerce. unfold mbind, Result_bind.
  by rewrite dropna_assign_columns.
Qed.

Lemma omap_length_filter {A B} (f : A → option B) (l : list A) :
  length (omap f l) = length (filter (λ x, is_Some (f x)) l).
Proof.
  induction l as [|a l IH]; [done|]. csimpl.
  destruct (f a) as [b|] eqn:Hfa.
  - rewrite filter_cons_True by (by rewrite Hfa). simpl. by rewrite IH.
  - rewrite filter_cons_False by (rewrite Hfa; by intros [? ?]). done.
Qed.


(** C9.  Loading the expense sheet never raises.  A row whose amount
    does not parse, and whose date parses in the sheet's Date column, is
    kept with amount 0.  A row whose date does not parse there is left
    out of the frame that every aggregation reads: each expense of the
    frame comes from a row with a parsed date, there are as many
    expenses as such rows, and the frame is made of the other rows
    alone. *)
Theorem load_expenses_recovers_malformed_rows (records : list SheetRow) :
  let col := raw_Date <$> records in
  ∃ df_exp,
    load_expenses parse_datetime parse_number records = Ok df_exp ∧
    (∀ r d, r ∈ records →
       parse_datetime col (raw_Date r) = Some d →
       parse_number (raw_Amount r) = None →
       mk_expense d (raw_Category r) (raw_Description r) 0%Qc ∈ df_exp) ∧
    (∀ e, e ∈ df_exp →
       ∃ r, r ∈ records ∧
            parse_datetime col (raw_Date r) = Some (exp_Date e) ∧
            exp_Amount e = default 0%Qc (parse_number (raw_Amount r))) ∧
    length df_exp
      = length (filter (λ r, is_Some (parse_datetime col (raw_Date r))) records) ∧
    (∀ before r after,
       records = before ++ r :: after →
       parse_datetime col (raw_Date r) = None →
       df_exp = omap (load_row parse_datetime parse_number col) before ++
                omap (load_row parse_datetime parse_number col) after).
Proof.
  intros col.
  exists (omap (load_row parse_datetime parse_number col) records).
  split; [apply load_expenses_rows|]. split; [|split; [|split]].
  - intros r d Hr Hd Hn. apply list_elem_of_omap. exists r. split; [done|].
    unfold load_row. by rewrite Hd, Hn.
  - intros e He. apply list_elem_of_omap in He as (r & Hr & Hload).
    exists r. split; [done|]. unfold load_row in Hload.
    destruct (parse_datetime col (raw_Date r)); by simplify_eq/=.
  - rewrite omap_length_filter. f_equal. apply list_filter_iff. intros r.
    unfold load_row.
    destruct (parse_datetime col (raw_Date r)); rewrite !is_Some_alt; done.
  - intros before r after Hrec Hd. clearbody col. subst records.
    rewrite omap_app. f_equal. csimpl.
    destruct (load_row parse_datetime parse_number col r) eqn:Hrow; [|done].
    unfold load_row in Hrow. by rewrite Hd in Hrow.
Qed.

End LoadingProperties.

Lemma load_expenses_recovers_malformed_rows_witness :
  let parse_datetime := λ (col : list Cell) (c : Cell),
    match c with
    | CStr "2025-01-05" => Some (mk_datetime 2025 1 5)
    | _ => None
    end in
  let parse_number := λ c,
    match c with
    | CNum q => Some q
    | CStr _ => None
    end in
  let kept := mk_sheet_row (CStr "2025-01-05") "Lunch" "canteen" (CStr "n/a") in
  let dropped := mk_sheet_row (CStr "yesterday") "Snacks" "tea" (CNum (rupees 40)) in
  ∃ df_exp,
    load_expenses parse_datetime parse_number [kept; dropped] = Ok df_exp ∧
    mk_expense (mk_datetime 2025 1 5) "Lunch" "canteen" 0%Qc ∈ df_exp ∧
    length df_exp = 1%nat.
Proof.
  intros parse_datetime parse_number kept dropped.
  destruct (load_expenses_recovers_malformed_rows parse_datetime parse_number
              [kept; dropped]) as (df_exp & Hload & Hkeep & _ & Hlen & _).
  exists df_exp. split; [exact Hload|]. split.
  - apply (Hkeep kept (mk_datetime 2025 1 5)); [left | reflexivity | reflexivity].
  - rewrite Hlen. reflexivity.
Defined.

(** *** The period resolver *)


(** A numeral has no dash in it, so the first dash after it is found. *)
Lemma split_dash_numeral (d : Decimal.uint) (rest : string) :
  split_dash (NilEmpty.string_of_uint d +:+ String "-" rest)
  = Some (NilEmpty.string_of_uint d, rest).
Proof. induction d; simpl; rewrite ?IHd; done. Qed.

(** The numeral of a non-negative integer. *)
Lemma str_nonneg (n : Z) :
  0 ≤ n → ∃ d, Z.to_int n = Decimal.Pos d ∧ str n = NilEmpty.string_of_uint d.
Proof.
  intros Hn. destruct n as [|p|p]; [| |lia].
  - by exists (Decimal.D0 Decimal.Nil).
  - exists (Pos.to_uint p). split; [done|].
    unfold str. simpl. pose proof (Unsigned.to_uint_nonnil p) as Hnil.
    by destruct (Pos.to_uint p).
Qed.

Lemma split_dash_str (n : Z) (rest : string) :
  0 ≤ n → split_dash (str n +:+ "-" +:+ rest) = Some (str n, rest).
Proof.
  intros Hn. destruct (str_nonneg n Hn) as (d & _ & ->).
  apply split_dash_numeral.
Qed.

Lemma int_of_string_str (n : Z) :
  Z.of_int <$> NilZero.int_of_string (str n) = Some n.
Proof.
  unfold str. rewrite NilZero.isi.
  - simpl. f_equal. apply DecimalZ.of_to.
  - destruct n as [|p|p]; simpl; [done| |done].
    intros [= Hnil]. by apply (Unsigned.to_uint_nonnil p).
  - destruct n as [|p|p]; simpl; [done|done|].
    intros [= Hnil]. by apply (Unsigned.to_uint_nonnil p).
Qed.

(** A month number is written on exactly two characters and reads back. *)
Lemma fmt_02d_month (m : Z) :
  1 ≤ m ≤ 12 →
  String.length (fmt_02d m) = 2%nat ∧
  Z.of_int <$> NilZero.int_of_string (fmt_02d m) = Some m.
Proof.
  intros Hm.
  assert (Hcases : m = 1 ∨ m = 2 ∨ m = 3 ∨ m = 4 ∨ m = 5 ∨ m = 6 ∨ m = 7 ∨
                   m = 8 ∨ m = 9 ∨ m = 10 ∨ m = 11 ∨ m = 12) by lia.
  repeat (destruct Hcases as [->|Hcases]); try subst m; by vm_compute.
Qed.

(** The key of year [y] and month [m] reads back as [(y, m)]. *)
Lemma parse_period_key_fmt (y m : Z) :
  0 ≤ y → 1 ≤ m ≤ 12 →
  parse_period_key (str y +:+ "-" +:+ fmt_02d m) = Some (y, m).
Proof.
  intros Hy Hm. unfold parse_period_key.
  rewrite split_dash_str by done.
  destruct (fmt_02d_month m Hm) as [Hlen Hread]. rewrite Hlen. simpl.
  pose proof (int_of_string_str y) as Hyear.
  destruct (NilZero.int_of_string (str y)) as [dy|]; [|done].
  destruct (NilZero.int_of_string (fmt_02d m)) as [dm|]; [|done].
  simpl in Hyear, Hread. congruence.
Qed.


Lemma next_calendar_month_cases (y m : Z) :
  1 ≤ m ≤ 12 →
  next_calendar_month y m = if m =? 12 then (y + 1, 1) else (y, m + 1).
Proof.
  intros Hm. unfold next_calendar_month.
  destruct (m =? 12) eqn:H12.
  - apply Z.eqb_eq in H12. subst m.
    replace (12 * y + (12 - 1) + 1) with ((y + 1) * 12) by lia.
    by rewrite Z.div_mul, Z.mod_mul.
  - apply Z.eqb_neq in H12.
    replace (12 * y + (m - 1) + 1) with (m + y * 12) by lia.
    rewrite Z.div_add, Z.mod_add by lia.
    rewrite Z.div_small, Z.mod_small by lia. f_equal; lia.
Qed.



(** ** Further properties of the program *)

(** *** The login gate *)

(** X1.  [check_password] lets the run through exactly when the session
    already holds a correct-password flag that is true.  It leaves the
    flag equal to its result, creating it as false when it is absent,
    and shows the "Password incorrect" error whenever it refuses, a
    first visit included; the reminder dismissal is untouched. *)
Theorem check_password_gate (st : SessionState) :
  (gate_result (check_password st) = true ↔ ss_password_correct st = Some true) ∧
  ss_password_correct (gate_state (check_password st))
    = Some (gate_result (check_password st)) ∧
  gate_error_shown (check_password st) = negb (gate_result (check_password st)) ∧
  ss_skip_prompt (gate_state (check_password st)) = ss_skip_prompt st.
Proof.
  unfold check_password.
  destruct st as [pw [[|]|] skip]; simpl; repeat split; congruence.
Qed.

(** X2.  Typing a password and running the gate: the callback never
    fails, the gate opens exactly when the typed text is the secret, a
    correct password is removed from the session state while a wrong one
    stays in it, and the reminder dismissal is kept. *)
Theorem type_password_round_trip (secret typed : string) (st : SessionState) :
  ∃ st',
    type_password secret typed st = Some st' ∧
    (gate_result (check_password st') = true ↔ typed = secret) ∧
    (typed = secret → ss_password st' = None) ∧
    (typed ≠ secret → ss_password st' = Some typed) ∧
    ss_skip_prompt st' = ss_skip_prompt st.
Proof.
  unfold type_password, password_entered. simpl.
  destruct (decide (typed = secret)) as [Heq|Hne]; eexists; (split; [done|]);
    unfold check_password; simpl; repeat split; try done; congruence.
Qed.

Lemma type_password_round_trip_witness :
  let st := mk_session None (Some false) (Some true) in
  ∃ st',
    type_password "s3cret" "s3cret" st = Some st' ∧
    gate_result (check_password st') = true ∧
    ss_password st' = None.
Proof.
  intros st.
  destruct (type_password_round_trip "s3cret" "s3cret" st)
    as (st' & Hrun & Hopen & Hgone & _ & _).
  exists st'. split; [exact Hrun|]. split.
  - apply Hopen. reflexivity.
  - apply Hgone. reflexivity.
Defined.

(** Without a "password" entry in the session state the callback raises
    instead of deciding; with one it always decides. *)
Lemma password_entered_needs_field (secret : string) (st : SessionState) :
  password_entered secret st = None ↔ ss_password st = None.
Proof.
  unfold password_entered. destruct (ss_password st) as [typed|]; [|done].
  destruct (decide (typed = secret)); split; discriminate.
Qed.

(** X3.  Logout closes the gate from any state, and reopening it takes
    the secret again; the reminder dismissal survives the logout. *)
Theorem logout_closes_gate (secret typed : string) (st : SessionState) :
  gate_result (check_password (logout st)) = false ∧
  ss_skip_prompt (logout st) = ss_skip_prompt st ∧
  (∀ st', type_password secret typed (logout st) = Some st' →
     gate_result (check_password st') = true → typed = secret).
Proof.
  repeat split.
  intros st'. unfold type_password, password_entered, logout. simpl.
  destruct (decide (typed = secret)) as [Heq|Hne]; [done|].
  intros [= <-]. unfold check_password. simpl. discriminate.
Qed.

Lemma logout_closes_gate_witness :
  let st := mk_session None (Some true) None in
  gate_result (check_password st) = true ∧
  gate_result (check_password (logout st)) = false.
Proof.
  intros st. split; [reflexivity|].
  apply (proj1 (logout_closes_gate "s3cret" "guess" st)).
Defined.

(** *** Appending to the Income sheet *)

(** X4.  Either action of the reminder makes it go away.  After "Set
    Salary" the target month has an income record, its income is the
    amount entered, the income of every other month is as before, and
    a run on the same date no longer shows the reminder; after "Skip" a
    run of the session does not show it, whatever the sheet holds. *)
Theorem reminder_dismissed (df_inc : list IncomeRecord) (today : datetime)
    (sal_in : amount) (st : SessionState) :
  let df' := quick_salary df_inc today sal_in in
  resolve_income df' (target_plan_month today) = sal_in ∧
  (∀ period, period ≠ target_plan_month today →
     resolve_income df' period = resolve_income df_inc period) ∧
  reminder_shown df' today st = false ∧
  reminder_shown df_inc today (skip_click st) = false.
Proof.
  intros df'. unfold df', quick_salary. repeat split.
  - rewrite resolve_income_snoc. by rewrite decide_True.
  - intros period Hp. rewrite resolve_income_snoc. by rewrite decide_False.
  - unfold reminder_shown, show_income_prompt.
    assert (He : income_exists
                   (df_inc ++ [mk_income (target_plan_month today) sal_in "Salary"
                                 (strftime_Y_m_d today)])
                   (target_plan_month today) = true).
    { apply income_exists_true.
      exists (mk_income (target_plan_month today) sal_in "Salary"
                (strftime_Y_m_d today)).
      split; [|done]. apply elem_of_app. right. left. }
    by rewrite He.
  - unfold reminder_shown, show_income_prompt, skip_click, get_skip_prompt. simpl.
    apply andb_false_r.
Qed.

Lemma reminder_dismissed_witness :
  let today := mk_datetime 2025 1 10 in
  let df := [mk_income "2024-12" (rupees 900) "Salary" "2024-12-01"] in
  let df' := quick_salary df today (rupees 1200) in
  resolve_income df' "2024-12" = resolve_income df "2024-12".
Proof.
  intros today df df'.
  apply (proj1 (proj2 (reminder_dismissed df today (rupees 1200)
                         (mk_session None None None)))).
  discriminate.
Defined.

(** X5.  "Update Income" is read back by the next run: the income of the
    selected month becomes the amount of the form, on the Planner and,
    for the current month, on the Dashboard; the income of every other
    month is unchanged. *)
Theorem update_income_round_trip (sheet_inc : list IncomeRecord)
    (plan_month_opt : string) (amount_field : amount) (today : datetime) :
  let df' := update_income sheet_inc plan_month_opt amount_field today in
  current_salary df' plan_month_opt = amount_field ∧
  (plan_month_opt = curr_month_str today → curr_sal df' today = amount_field) ∧
  (∀ period, period ≠ plan_month_opt →
     resolve_income df' period = resolve_income sheet_inc period).
Proof.
  intros df'. unfold df', update_income, current_salary, curr_sal. repeat split.
  - rewrite resolve_income_snoc. by rewrite decide_True.
  - intros <-. rewrite resolve_income_snoc. by rewrite decide_True.
  - intros period Hp. rewrite resolve_income_snoc. by rewrite decide_False.
Qed.

Lemma update_income_round_trip_witness :
  let today := mk_datetime 2025 1 10 in
  let df := [mk_income "2025-01" (rupees 900) "Salary" "2025-01-01"] in
  curr_sal (update_income df "2025-01" (rupees 1500) today) today = rupees 1500.
Proof.
  intros today df.
  apply (proj1 (proj2 (update_income_round_trip df "2025-01" (rupees 1500) today))).
  reflexivity.
Defined.

(** *** Appending to the CategoryBudgets sheet *)

Lemma groupby_sum_snoc {A} (key : A → string) (val : A → amount)
    (df : list A) (r : A) :
  groupby_sum key val (df ++ [r])
  = <[key r := (default 0 (groupby_sum key val df !! key r) + val r)%Qc]>
      (groupby_sum key val df).
Proof. unfold groupby_sum. by rewrite foldl_snoc. Qed.

Lemma total_snoc (l : list amount) (x : amount) :
  total (l ++ [x]) = (total l + x)%Qc.
Proof.
  unfold total. induction l as [|a l IH]; simpl; [ring|]. rewrite IH. ring.
Qed.

(** The emptiness guards of the budget queries change nothing. *)
Lemma resolve_planned_budget_groupby (df_cat_bud : list BudgetAllocationRecord)
    (period : string) :
  resolve_planned_budget df_cat_bud period
  = groupby_sum bud_Category bud_Planned_Amount
      (filter (λ b, bud_Month_Year b = period) df_cat_bud).
Proof. unfold resolve_planned_budget. by destruct df_cat_bud. Qed.

Lemma plan_df_filter (df_cat_bud : list BudgetAllocationRecord) (period : string) :
  plan_df df_cat_bud period = filter (λ b, bud_Month_Year b = period) df_cat_bud.
Proof. unfold plan_df. by destruct df_cat_bud. Qed.

(** X6.  A positive "Add Allocation" is read back by the next run: in the
    selected month the planned amount of the chosen category grows by
    the amount entered (starting from 0 for a new category), the other
    categories keep theirs, the total allocation grows by that amount,
    and the plan of every other month is unchanged. *)
Theorem add_cat_budget_accumulates (sheet_cat_bud : list BudgetAllocationRecord)
    (plan_month_opt cat_input : string) (amt_input : amount) (today : datetime) :
  (0 < amt_input)%Qc →
  let sheet' :=
    (add_cat_budget sheet_cat_bud plan_month_opt cat_input amt_input today).1 in
  resolve_planned_budget sheet' plan_month_opt
    = <[cat_input :=
          (default 0 (resolve_planned_budget sheet_cat_bud plan_month_opt
                        !! cat_input) + amt_input)%Qc]>
        (resolve_planned_budget sheet_cat_bud plan_month_opt) ∧
  total_alloc sheet' plan_month_opt
    = (total_alloc sheet_cat_bud plan_month_opt + amt_input)%Qc ∧
  (∀ period, period ≠ plan_month_opt →
     resolve_planned_budget sheet' period
     = resolve_planned_budget sheet_cat_bud period).
Proof.
  intros Hpos sheet'. unfold sheet', add_cat_budget.
  rewrite bool_decide_eq_true_2 by done. simpl. repeat split.
  - rewrite !resolve_planned_budget_groupby, filter_app.
    rewrite (filter_cons_True _ _ []) by done. rewrite filter_nil.
    by rewrite groupby_sum_snoc.
  - rewrite !total_alloc_total, filter_app.
    rewrite (filter_cons_True _ _ []) by done. rewrite filter_nil.
    rewrite fmap_app. cbn [fmap list_fmap]. by rewrite total_snoc.
  - intros period Hp. rewrite !resolve_planned_budget_groupby, filter_app.
    rewrite (filter_cons_False _ _ []) by (simpl; congruence).
    by rewrite filter_nil, app_nil_r.
Qed.

Lemma add_cat_budget_accumulates_witness :
  let sheet := [mk_alloc "2025-01" "Rent" (rupees 400) "2025-01-02"] in
  let sheet' :=
    (add_cat_budget sheet "2025-01" "Rent" (rupees 100) (mk_datetime 2025 1 10)).1 in
  total_alloc sheet' "2025-01" = (total_alloc sheet "2025-01" + rupees 100)%Qc.
Proof.
  intros sheet sheet'.
  apply (proj1 (proj2 (add_cat_budget_accumulates sheet "2025-01" "Rent"
                         (rupees 100) (mk_datetime 2025 1 10) eq_refl))).
Defined.

(** *** The metrics against the grouped frames *)

(** X7.  The "Actual Spent" metric is the sum of the per-category actual
    amounts of the chart.  The "Planned Budget" metric of the Dashboard
    is the sum of the planned amounts of the rows of the current month,
    0 when there is none, and equals the total allocation the Budget
    Planner shows for that month. *)
Theorem dashboard_metrics_agree (df_exp : list ExpenseRecord)
    (df_cat_bud : list BudgetAllocationRecord) (today : datetime) :
  total_spent df_exp today = grouped_total (actual_grp (dash_df df_exp today)) ∧
  total_planned (curr_plan df_cat_bud today)
    = total (bud_Planned_Amount <$>
               filter (λ b, bud_Month_Year b = curr_month_str today) df_cat_bud) ∧
  total_planned (curr_plan df_cat_bud today)
    = total_alloc df_cat_bud (curr_month_str today).
Proof.
  assert (Hplanned : total_planned (curr_plan df_cat_bud today)
            = total (bud_Planned_Amount <$>
                filter (λ b, bud_Month_Year b = curr_month_str today) df_cat_bud)).
  { unfold total_planned, curr_plan.
    rewrite resolve_planned_budget_groupby.
    destruct (decide (_ = ∅)) as [Hempty|_].
    - rewrite <- (grouped_total_groupby_sum bud_Category), Hempty.
      unfold grouped_total. by rewrite map_fold_empty.
    - apply grouped_total_groupby_sum. }
  repeat split.
  - unfold total_spent, actual_grp.
    by rewrite grouped_total_groupby_sum, column_sum_total.
  - exact Hplanned.
  - by rewrite Hplanned, total_alloc_total.
Qed.

(** *** The Over Limit table and the bar colours *)

Lemma Qc_sub_neg (p a : amount) : (p - a < 0)%Qc ↔ (p < a)%Qc.
Proof.
  rewrite (Qcplus_lt_mono_r (p - a) 0 a).
  replace (p - a + a)%Qc with p by ring. by rewrite Qcplus_0_l.
Qed.

(** Every row of [merge_plan_actual] carries the flag of its amounts. *)
Lemma merge_plan_actual_flag (curr_plan actual_grp : gmap string amount)
    (c : string) (row : MergedRow) :
  merge_plan_actual curr_plan actual_grp !! c = Some row →
  row = mk_merged (default 0%Qc (curr_plan !! c)) (default 0%Qc (actual_grp !! c))
          (bool_decide (default 0%Qc (curr_plan !! c)
                        < default 0%Qc (actual_grp !! c))%Qc) ∧
  (is_Some (curr_plan !! c) ∨ is_Some (actual_grp !! c)).
Proof.
  rewrite merge_plan_actual_lookup.
  destruct (curr_plan !! c), (actual_grp !! c); intros Hrow; simplify_eq/=;
    (split; [done|]); rewrite !is_Some_alt; tauto.
Qed.

(** X8.  The Over Limit table lists exactly the categories that the
    chart flags as over budget, each with the amount by which the actual
    spend exceeds the plan; that amount is strictly positive. *)
Theorem over_budget_matches_flag (curr_plan actual_grp : gmap string amount)
    (c : string) :
  let merged := merge_plan_actual curr_plan actual_grp in
  over_budget merged !! c
    = match merged !! c with
      | Some row =>
          if Is_Over_Budget row then Some (Actual row - Planned row)%Qc else None
      | None => None
      end ∧
  (∀ over_by, over_budget merged !! c = Some over_by → (0 < over_by)%Qc).
Proof.
  intros merged.
  assert (Hlookup : over_budget merged !! c
            = match merged !! c with
              | Some row =>
                  if Is_Over_Budget row
                  then Some (Actual row - Planned row)%Qc else None
              | None => None
              end).
  { unfold over_budget. rewrite lookup_fmap, map_lookup_filter.
    destruct (merged !! c) as [row|] eqn:Hrow; [|done].
    apply merge_plan_actual_flag in Hrow as [-> _]. simpl.
    destruct (decide (default 0%Qc (curr_plan !! c)
                      < default 0%Qc (actual_grp !! c))%Qc) as [Hlt|Hge].
    - rewrite option_guard_True by (by apply Qc_sub_neg).
      rewrite bool_decide_eq_true_2 by done. simpl. f_equal.
      rewrite Qcabs_neg; [ring|].
      apply Qclt_le_weak. by apply Qc_sub_neg.
    - rewrite option_guard_False by (by rewrite Qc_sub_neg).
      by rewrite bool_decide_eq_false_2. }
  split; [exact Hlookup|].
  intros over_by. rewrite Hlookup.
  destruct (merged !! c) as [row|] eqn:Hrow; [|done].
  apply merge_plan_actual_flag in Hrow as [-> _]. simpl.
  case_bool_decide as Hlt; [|done]. intros [= <-].
  apply (Qcplus_lt_mono_r _ _ (default 0%Qc (curr_plan !! c))).
  rewrite Qcplus_0_l.
  by replace (default 0%Qc (actual_grp !! c) - default 0%Qc (curr_plan !! c)
              + default 0%Qc (curr_plan !! c))%Qc
    with (default 0%Qc (actual_grp !! c)) by ring.
Qed.

Lemma over_budget_matches_flag_witness :
  let plan : gmap string amount := {[ "Groceries"%string := rupees 500 ]} in
  let spent : gmap string amount := {[ "Groceries"%string := rupees 620 ]} in
  over_budget (merge_plan_actual plan spent) !! "Groceries"%string
    = Some (rupees 120) ∧
  (0 < rupees 120)%Qc.
Proof.
  intros plan spent.
  assert (Hrow : over_budget (merge_plan_actual plan spent) !! "Groceries"%string
                 = Some (rupees 120)) by (vm_compute; f_equal; qc_eq).
  split; [exact Hrow|].
  apply (proj2 (over_budget_matches_flag plan spent "Groceries") _ Hrow).
Defined.

(** No two bars of the chart have the same category and type. *)
Lemma melted_keys_NoDup (merged : gmap string MergedRow) :
  NoDup ((λ bar, (bar_Category bar, bar_Type bar)) <$> melted merged).
Proof.
  unfold melted. rewrite fmap_app, <- !list_fmap_compose.
  assert (Hblock : ∀ t : BarType,
            NoDup ((λ kv : string * MergedRow, (kv.1, t)) <$> map_to_list merged)).
  { intros t.
    change (λ kv : string * MergedRow, (kv.1, t))
      with ((λ c : string, (c, t)) ∘ (fst : string * MergedRow → string)).
    rewrite list_fmap_compose. apply NoDup_fmap_2.
    - intros c1 c2 Hc. by injection Hc.
    - apply NoDup_fst_map_to_list. }
  apply NoDup_app. split; [apply (Hblock Bar_Planned)|].
  split; [|apply (Hblock Bar_Actual)].
  intros key Hp Ha.
  apply list_elem_of_fmap in Hp as (kv1 & -> & _).
  apply list_elem_of_fmap in Ha as (kv2 & Heq & _).
  simpl in Heq. discriminate Heq.
Qed.

(** X9.  In the chart every category of the plan or of the actual spend
    has exactly one Planned bar and one Actual bar: it has one of each,
    and no two bars share category and type; there are no other bars.  A
    bar carries the planned, respectively actual, amount of its
    category, 0 when that side has none.  Planned bars are grey; an
    Actual bar is red when the actual amount exceeds the planned one and
    green otherwise. *)
Theorem melted_bar_colours (curr_plan actual_grp : gmap string amount) :
  let bars := melted (merge_plan_actual curr_plan actual_grp) in
  (∀ bar, bar ∈ bars →
     let planned := default 0%Qc (curr_plan !! bar_Category bar) in
     let actual := default 0%Qc (actual_grp !! bar_Category bar) in
     (is_Some (curr_plan !! bar_Category bar) ∨
      is_Some (actual_grp !! bar_Category bar)) ∧
     bar_Amount bar
       = match bar_Type bar with Bar_Planned => planned | Bar_Actual => actual end ∧
     (get_bar_color bar = "#e0e0e0"%string ↔ bar_Type bar = Bar_Planned) ∧
     (get_bar_color bar = "#ff4b4b"%string ↔
        bar_Type bar = Bar_Actual ∧ (planned < actual)%Qc) ∧
     (get_bar_color bar = "#2ca02c"%string ↔
        bar_Type bar = Bar_Actual ∧ (actual ≤ planned)%Qc)) ∧
  (∀ c, is_Some (curr_plan !! c) ∨ is_Some (actual_grp !! c) →
     ∃ planned_bar actual_bar,
       planned_bar ∈ bars ∧ actual_bar ∈ bars ∧
       bar_Category planned_bar = c ∧ bar_Type planned_bar = Bar_Planned ∧
       bar_Category actual_bar = c ∧ bar_Type actual_bar = Bar_Actual) ∧
  NoDup ((λ bar, (bar_Category bar, bar_Type bar)) <$> bars).
Proof.
  intros bars. split; [|split; [|apply melted_keys_NoDup]]; unfold bars, melted.
  - intros bar Hbar.
    apply elem_of_app in Hbar as [Hbar|Hbar];
      apply list_elem_of_fmap in Hbar as ([c row] & -> & Hrow);
      apply elem_of_map_to_list, merge_plan_actual_flag in Hrow as [-> Hsome];
      unfold get_bar_color; simpl; (split; [exact Hsome|]); (split; [done|]).
    + split; [done|]. split; split; try done; intros [? _]; done.
    + case_bool_decide as Hlt; (split; [done|]).
      * split; [done|]. split; [done|].
        intros [_ Hle]. by apply Qcle_ngt in Hle.
      * split; [split; [done|by intros [_ ?]]|].
        split; [intros _|done]. split; [done|]. by apply Qcle_ngt.
  - intros c Hsome.
    assert (Hrow : is_Some (merge_plan_actual curr_plan actual_grp !! c)).
    { rewrite merge_plan_actual_lookup.
      destruct Hsome as [[p Hp]|[a Ha]].
      - rewrite Hp. by destruct (actual_grp !! c).
      - rewrite Ha. by destruct (curr_plan !! c). }
    destruct Hrow as [row Hrow]. apply elem_of_map_to_list in Hrow.
    exists (mk_bar c (Is_Over_Budget row) Bar_Planned (Planned row)),
           (mk_bar c (Is_Over_Budget row) Bar_Actual (Actual row)).
    repeat split.
    + apply elem_of_app. left.
      apply list_elem_of_fmap. by exists (c, row).
    + apply elem_of_app. right.
      apply list_elem_of_fmap. by exists (c, row).
Qed.

Lemma melted_bar_colours_witness :
  let plan : gmap string amount := {[ "Groceries"%string := rupees 500 ]} in
  let spent : gmap string amount := {[ "Petrol"%string := rupees 80 ]} in
  ∃ planned_bar actual_bar,
    planned_bar ∈ melted (merge_plan_actual plan spent) ∧
    actual_bar ∈ melted (merge_plan_actual plan spent) ∧
    bar_Category planned_bar = "Petrol"%string ∧
    bar_Type planned_bar = Bar_Planned ∧
    bar_Category actual_bar = "Petrol"%string ∧
    bar_Type actual_bar = Bar_Actual.
Proof.
  intros plan spent.
  apply (proj1 (proj2 (melted_bar_colours plan spent)) "Petrol"%string).
  right. vm_compute. eexists. reflexivity.
Defined.

(** *** Days of a month *)

Lemma monthrange_bounds (y m : Z) : 28 ≤ monthrange y m ≤ 31.
Proof.
  unfold monthrange.
  destruct (m =? 2); [destruct (isleap y); lia|].
  destruct ((m =? 4) || (m =? 6) || (m =? 9) || (m =? 11)); lia.
Qed.


(** *** The previous month *)

Lemma filter_iff_elem {A} (P Q : A → Prop) `{∀ x, Decision (P x)}
    `{∀ x, Decision (Q x)} (l : list A) :
  (∀ x, x ∈ l → P x ↔ Q x) → filter P l = filter Q l.
Proof.
  induction l as [|a l IH]; intros HPQ; [done|].
  assert (Hl : filter P l = filter Q l).
  { apply IH. intros x Hx. apply HPQ. by right. }
  destruct (decide (P a)) as [Ha|Ha].
  - rewrite !filter_cons_True; [by rewrite Hl| |done]. apply HPQ; [left|done].
  - rewrite !filter_cons_False; [done| |done].
    intros Hq. apply Ha. apply HPQ; [left|done].
Qed.

(** X11.  The date whose month the comparison takes as the previous
    month is a date of the calendar, the last day of its month, and the
    month that follows it is the month of [today]: its next period key is
    the current period key. *)
Theorem last_month_date_is_previous_month (today : datetime) :
  valid today → 1 < year today →
  valid (last_month_date today) ∧
  day (last_month_date today)
    = monthrange (year (last_month_date today)) (month (last_month_date today)) ∧
  next_calendar_month (year (last_month_date today)) (month (last_month_date today))
    = (year today, month today) ∧
  next_month_str (last_month_date today) = curr_month_str today.
Proof.
  intros (Hy & Hm & _) Hy1.
  rewrite last_month_date_spec by done.
  destruct (month today =? 1) eqn:H1.
  - apply Z.eqb_eq in H1. unfold valid, next_month_str, curr_month_str, strftime_Y_m.
    simpl. rewrite H1. repeat split; try lia; try done.
    + rewrite next_calendar_month_cases by lia. simpl. f_equal. lia.
    + by replace (year today - 1 + 1) with (year today) by lia.
  - apply Z.eqb_neq in H1. unfold valid, next_month_str, curr_month_str, strftime_Y_m.
    simpl. pose proof (monthrange_bounds (year today) (month today - 1)).
    repeat split; try lia.
    + rewrite next_calendar_month_cases by lia.
      rewrite (proj2 (Z.eqb_neq (month today - 1) 12)) by lia. f_equal. lia.
    + rewrite (proj2 (Z.eqb_neq (month today - 1) 12)) by lia.
      by replace (month today - 1 + 1) with (month today) by lia.
Qed.

Lemma last_month_date_is_previous_month_witness :
  let today := mk_datetime 2024 3 31 in
  valid (last_month_date today) ∧
  next_month_str (last_month_date today) = curr_month_str today.
Proof.
  intros today.
  assert (Hvalid : valid today) by (unfold valid, today; cbn; lia).
  assert (Hyear : 1 < year today) by (unfold today; cbn; lia).
  destruct (last_month_date_is_previous_month today Hvalid Hyear)
    as (Hv & _ & _ & Hkey).
  split; [exact Hv | exact Hkey].
Defined.

(** X12.  When every expense of the sheet is dated in the twelve months
    up to and including the month of [today], the previous-month frame
    holds exactly the expenses of the previous calendar month, so the
    previous total and the previous per-category sums are those of that
    month. *)
Theorem prev_df_exact_within_a_year (df_exp : list ExpenseRecord) (today : datetime) :
  1 ≤ month today ≤ 12 →
  (∀ e, e ∈ df_exp →
     12 * year today + month today - 11
       ≤ 12 * year (exp_Date e) + month (exp_Date e)
       ≤ 12 * year today + month today) →
  prev_df df_exp today = filter (in_previous_period today) df_exp ∧
  p_total df_exp today
    = column_sum exp_Amount (filter (in_previous_period today) df_exp) ∧
  p_cat df_exp today
    = groupby_sum exp_Category exp_Amount (filter (in_previous_period today) df_exp).
Proof.
  intros Hm Hrecent.
  assert (Hprev : prev_df df_exp today = filter (in_previous_period today) df_exp).
  { unfold prev_df. apply filter_iff_elem. intros e He.
    specialize (Hrecent e He). unfold in_previous_period, prev_month_idx.
    rewrite last_month_date_spec by done.
    destruct (month today =? 1) eqn:H1; simpl.
    - apply Z.eqb_eq in H1. lia.
    - apply Z.eqb_neq in H1. lia. }
  unfold p_total, p_cat. by rewrite Hprev.
Qed.

Lemma prev_df_exact_within_a_year_witness :
  let today := mk_datetime 2025 1 15 in
  let df := [mk_expense (mk_datetime 2024 12 5) "Groceries" "market" (rupees 50);
             mk_expense (mk_datetime 2025 1 3) "Groceries" "market" (rupees 70)] in
  p_total df today = column_sum exp_Amount (filter (in_previous_period today) df).
Proof.
  intros today df.
  assert (Hm : 1 ≤ month today ≤ 12) by (unfold today; cbn; lia).
  assert (Hrecent : ∀ e, e ∈ df →
            12 * year today + month today - 11
              ≤ 12 * year (exp_Date e) + month (exp_Date e)
              ≤ 12 * year today + month today).
  { intros e He. unfold df in He.
    apply elem_of_cons in He as [->|He]; [cbn; lia|].
    apply list_elem_of_singleton in He. subst e. cbn. lia. }
  apply (proj1 (proj2 (prev_df_exact_within_a_year df today Hm Hrecent))).
Defined.

(** X13.  A category is in the month-over-month comparison exactly when
    it has an expense in the current frame or in the previous-month
    frame; its pair is the sum of its expenses in the current frame and
    the sum in the previous-month frame, 0 for a frame without any. *)
Theorem comp_merged_outer_join (df_exp : list ExpenseRecord) (today : datetime)
    (c : string) :
  let current := filter (λ e, exp_Category e = c) (curr_df df_exp today) in
  let previous := filter (λ e, exp_Category e = c) (prev_df df_exp today) in
  comp_merged df_exp today !! c
    = if df_empty current && df_empty previous then None
      else Some (total (exp_Amount <$> current), total (exp_Amount <$> previous)).
Proof.
  intros current previous. unfold comp_merged, fillna_0, merge_outer, c_cat, p_cat.
  rewrite lookup_fmap, lookup_merge, !groupby_sum_lookup. simpl.
  fold current. fold previous.
  by destruct current, previous.
Qed.

(** *** The balance of the Budget Planner *)

Lemma total_alloc_snoc (sheet_cat_bud : list BudgetAllocationRecord)
    (r : BudgetAllocationRecord) :
  total_alloc (sheet_cat_bud ++ [r]) (bud_Month_Year r)
  = (total_alloc sheet_cat_bud (bud_Month_Year r) + bud_Planned_Amount r)%Qc.
Proof.
  rewrite !total_alloc_total, filter_app.
  rewrite (filter_cons_True _ _ []) by done. rewrite filter_nil.
  rewrite fmap_app. cbn [fmap list_fmap]. by rewrite total_snoc.
Qed.

(** X14.  The Budget Planner shows no balance exactly when the selected
    month has no allocation row, whatever its income.  After a positive
    "Add Allocation" for the month a balance is always shown, and it is
    the income of the form less the earlier total allocation and the
    amount just added. *)
Theorem balance_shown_iff_allocated (df_inc : list IncomeRecord)
    (df_cat_bud : list BudgetAllocationRecord) (plan_month_opt cat_input : string)
    (field : option amount) (amt_input : amount) (today : datetime) :
  (balance df_inc df_cat_bud plan_month_opt field = None ↔
     ∀ b, b ∈ df_cat_bud → bud_Month_Year b ≠ plan_month_opt) ∧
  ((0 < amt_input)%Qc →
     balance df_inc
       (add_cat_budget df_cat_bud plan_month_opt cat_input amt_input today).1
       plan_month_opt field
     = Some (new_salary df_inc plan_month_opt field
             - total_alloc df_cat_bud plan_month_opt - amt_input)%Qc).
Proof.
  split.
  - unfold balance. rewrite plan_df_filter. split.
    + destruct (filter _ df_cat_bud) as [|b0 l] eqn:Hf; [|done]. intros _ b Hb Hp.
      assert (Hin : b ∈ filter (λ b, bud_Month_Year b = plan_month_opt) df_cat_bud)
        by (by apply list_elem_of_filter).
      rewrite Hf in Hin. by apply elem_of_nil in Hin.
    + intros Hno. by rewrite (filter_none _ _ Hno).
  - intros Hpos. unfold add_cat_budget.
    rewrite bool_decide_eq_true_2 by done. cbn [fst].
    pose proof (total_alloc_snoc df_cat_bud
                  (mk_alloc plan_month_opt cat_input amt_input
                     (strftime_Y_m_d today))) as Hsnoc.
    cbn [bud_Month_Year bud_Planned_Amount] in Hsnoc.
    unfold balance. rewrite Hsnoc, plan_df_filter, filter_app.
    rewrite (filter_cons_True _ _ []) by done. rewrite filter_nil.
    destruct (filter _ df_cat_bud ++ _) as [|b0 l] eqn:Hf.
    { by apply app_nil in Hf as [_ ?]. }
    cbn [df_empty]. f_equal. ring.
Qed.

Lemma balance_shown_iff_allocated_witness :
  let df_inc := [mk_income "2025-01" (rupees 1000) "Salary" "2025-01-02"] in
  balance df_inc
    (add_cat_budget [] "2025-01" "Rent" (rupees 400) (mk_datetime 2025 1 10)).1
    "2025-01" None
  = Some (new_salary df_inc "2025-01" None - total_alloc [] "2025-01"
          - rupees 400)%Qc.
Proof.
  intros df_inc.
  apply (proj2 (balance_shown_iff_allocated df_inc [] "2025-01" "Rent" None
                  (rupees 400) (mk_datetime 2025 1 10))).
  reflexivity.
Defined.

(** *** The month selector *)

Lemma parse_curr_month_str (today : datetime) :
  valid today →
  parse_period_key (curr_month_str today) = Some (year today, month today).
Proof. intros (Hy & Hm & _). apply parse_period_key_fmt; lia. Qed.

Lemma parse_next_month_str (today : datetime) :
  valid today →
  parse_period_key (next_month_str today)
  = Some (if month today =? 12 then (year today + 1, 1)
          else (year today, month today + 1)).
Proof.
  intros (Hy & Hm & _). unfold next_month_str.
  destruct (month today =? 12) eqn:H12.
  - apply (parse_period_key_fmt (year today + 1) 1); lia.
  - apply Z.eqb_neq in H12. apply parse_period_key_fmt; lia.
Qed.

(** X15.  On a date of the calendar the two options of the month
    selector are different keys, and the month the reminder asks about
    is always one of them. *)
Theorem plan_month_options_distinct (today : datetime) :
  valid today →
  NoDup (plan_month_options today) ∧
  target_plan_month today ∈ plan_month_options today.
Proof.
  intros Hvalid. unfold plan_month_options. split.
  - apply NoDup_cons. split; [|apply NoDup_singleton].
    rewrite list_elem_of_singleton. intros Heq.
    apply (f_equal parse_period_key) in Heq.
    rewrite parse_curr_month_str, parse_next_month_str in Heq by done.
    destruct (month today =? 12); simplify_eq; lia.
  - unfold target_plan_month.
    destruct (25 <=? day today); [right; left | left].
Qed.

Lemma plan_month_options_distinct_witness :
  NoDup (plan_month_options (mk_datetime 2024 12 26)).
Proof.
  assert (Hvalid : valid (mk_datetime 2024 12 26)) by (unfold valid; cbn; lia).
  apply (proj1 (plan_month_options_distinct (mk_datetime 2024 12 26) Hvalid)).
Defined.

(** *** The worksheets *)



(** *** Saving an expense *)

Section EntryProperties.

Variable parse_datetime : list Cell → Cell → option datetime.
Variable parse_number : Cell → option amount.


End EntryProperties.

